(** * G2452_ULP_RTC: the RTC register file, its time and alarm engines,
      the tick scheduler and the I2C slave callbacks

    A shallow embedding of main.c (the time engine, the alarm engine, the
    timer interrupt and the two bus callbacks) and of the USI interrupt
    handler of the I2C slave library.  Every global of the C program is a
    field of a state record; an [unsigned char] is a [Z] in [0, 256) whose
    wrap-around is written out with [mod 256], an [unsigned int] wraps at
    [2 ^ 16] (the MSP430 is a 16-bit target). *)

From Stdlib Require Import ZArith Bool List Lia.
From stdpp Require Import base list.

Open Scope Z_scope.

(** ** Bytes and bit masks *)

(** Truncation of an [int] result to [unsigned char] / [unsigned int]. *)
Definition u8 (x : Z) : Z := x mod 256.
Definition u16 (x : Z) : Z := x mod 65536.

Definition is_u8 (x : Z) : Prop := 0 <= x < 256.

(** Modelled from the spec: the masks [BIT0] .. [BIT7] come from the device
    header included by main.c, which is not part of the repository; the
    register map numbers bits so that bit [n] is the mask [2 ^ n]. *)
Definition BIT0 : Z := 0x01.
Definition BIT1 : Z := 0x02.
Definition BIT2 : Z := 0x04.
Definition BIT3 : Z := 0x08.
Definition BIT4 : Z := 0x10.
Definition BIT5 : Z := 0x20.
Definition BIT6 : Z := 0x40.
Definition BIT7 : Z := 0x80.

(** config.h *)
Definition _I2C_addr : Z := 0x41.
Definition _I2C_addr_op1 : Z := 0x43.
Definition MON : Z := BIT0.
Definition TUE : Z := BIT1.
Definition WED : Z := BIT2.
Definition THU : Z := BIT3.
Definition FRI : Z := BIT4.
Definition SAT : Z := BIT5.
Definition SUN : Z := BIT6.

(** C truth value of an integer expression. *)
Definition truthy (x : Z) : bool := negb (x =? 0).

(** ** The globals of main.c *)

Record state : Type := mkState {
  _DATA_STORE : list Z;          (* unsigned char _DATA_STORE[31] *)
  _second_tick : Z;              (* unsigned int *)
  _is_leap_year : Z;
  _I2C_data_offset : Z;
  _RTC_action_bits : Z;
  _RTC_byte_l : Z;
  _RTC_byte_h : Z;
  _USI_I2C_slave_n_byte : Z;
  P1OUT : Z;                     (* output port 1 *)
  P2OUT : Z;                     (* output port 2 *)
  TACCR0 : Z                     (* 16-bit timer compare register *)
}.

Definition set_DATA_STORE (v : list Z) (s : state) : state :=
  mkState v (_second_tick s) (_is_leap_year s) (_I2C_data_offset s)
    (_RTC_action_bits s) (_RTC_byte_l s) (_RTC_byte_h s)
    (_USI_I2C_slave_n_byte s) (P1OUT s) (P2OUT s) (TACCR0 s).
Definition set_second_tick (v : Z) (s : state) : state :=
  mkState (_DATA_STORE s) v (_is_leap_year s) (_I2C_data_offset s)
    (_RTC_action_bits s) (_RTC_byte_l s) (_RTC_byte_h s)
    (_USI_I2C_slave_n_byte s) (P1OUT s) (P2OUT s) (TACCR0 s).
Definition set_is_leap_year (v : Z) (s : state) : state :=
  mkState (_DATA_STORE s) (_second_tick s) v (_I2C_data_offset s)
    (_RTC_action_bits s) (_RTC_byte_l s) (_RTC_byte_h s)
    (_USI_I2C_slave_n_byte s) (P1OUT s) (P2OUT s) (TACCR0 s).
Definition set_I2C_data_offset (v : Z) (s : state) : state :=
  mkState (_DATA_STORE s) (_second_tick s) (_is_leap_year s) v
    (_RTC_action_bits s) (_RTC_byte_l s) (_RTC_byte_h s)
    (_USI_I2C_slave_n_byte s) (P1OUT s) (P2OUT s) (TACCR0 s).
Definition set_RTC_action_bits (v : Z) (s : state) : state :=
  mkState (_DATA_STORE s) (_second_tick s) (_is_leap_year s)
    (_I2C_data_offset s) v (_RTC_byte_l s) (_RTC_byte_h s)
    (_USI_I2C_slave_n_byte s) (P1OUT s) (P2OUT s) (TACCR0 s).
Definition set_RTC_byte_l (v : Z) (s : state) : state :=
  mkState (_DATA_STORE s) (_second_tick s) (_is_leap_year s)
    (_I2C_data_offset s) (_RTC_action_bits s) v (_RTC_byte_h s)
    (_USI_I2C_slave_n_byte s) (P1OUT s) (P2OUT s) (TACCR0 s).
Definition set_RTC_byte_h (v : Z) (s : state) : state :=
  mkState (_DATA_STORE s) (_second_tick s) (_is_leap_year s)
    (_I2C_data_offset s) (_RTC_action_bits s) (_RTC_byte_l s) v
    (_USI_I2C_slave_n_byte s) (P1OUT s) (P2OUT s) (TACCR0 s).
Definition set_n_byte (v : Z) (s : state) : state :=
  mkState (_DATA_STORE s) (_second_tick s) (_is_leap_year s)
    (_I2C_data_offset s) (_RTC_action_bits s) (_RTC_byte_l s)
    (_RTC_byte_h s) v (P1OUT s) (P2OUT s) (TACCR0 s).
Definition set_P1OUT (v : Z) (s : state) : state :=
  mkState (_DATA_STORE s) (_second_tick s) (_is_leap_year s)
    (_I2C_data_offset s) (_RTC_action_bits s) (_RTC_byte_l s)
    (_RTC_byte_h s) (_USI_I2C_slave_n_byte s) v (P2OUT s) (TACCR0 s).
Definition set_TACCR0 (v : Z) (s : state) : state :=
  mkState (_DATA_STORE s) (_second_tick s) (_is_leap_year s)
    (_I2C_data_offset s) (_RTC_action_bits s) (_RTC_byte_l s)
    (_RTC_byte_h s) (_USI_I2C_slave_n_byte s) (P1OUT s) (P2OUT s) v.

(** [_DATA_STORE[i]] read and written at a constant offset of the source. *)
Definition ld (i : nat) (s : state) : Z := _DATA_STORE s !!! i.
Definition st (i : nat) (v : Z) (s : state) : state :=
  set_DATA_STORE (<[i := v]> (_DATA_STORE s)) s.

(** ** The time engine *)

(** [_check_leap_year] *)
Definition _check_leap_year (s : state) : state :=
  let s := set_is_leap_year 0 s in
  let s := set_RTC_byte_l (u8 (Z.shiftl (ld 6 s) 4)) s in
  if truthy (Z.land (ld 6 s) 0x10) then
    if (_RTC_byte_l s =? 0x20) || (_RTC_byte_l s =? 0x60)
    then set_is_leap_year 1 s else s
  else
    if (_RTC_byte_l s =? 0x40) || (_RTC_byte_l s =? 0x80)
    then set_is_leap_year 1 s else s.

(** [_init_DS], run on the zero-initialised statics of main.c *)
Definition _init_DS (s : state) : state :=
  let s := st 3 0x06 s in
  let s := st 4 0x01 s in
  let s := st 5 0x01 s in
  st 7 0x20 s.

Definition statics : state :=
  mkState (replicate 31 0) 0 0 0 0x00 0 0 0 0 0 0.

(** [_DATA_STORE[i]++] *)
Definition incr (i : nat) (s : state) : state := st i (u8 (ld i s + 1)) s.

(** [_time_carry(_DATA_STORE + i)] *)
Definition _time_carry (i : nat) (s : state) : state :=
  let s := set_RTC_byte_l (u8 (Z.shiftl (ld i s) 4)) s in
  if _RTC_byte_l s =? 0xA0 then
    let s := set_RTC_byte_h (u8 (Z.shiftr (ld i s) 4)) s in
    let s := set_RTC_byte_h (u8 (_RTC_byte_h s + 1)) s in
    st i (u8 (Z.shiftl (_RTC_byte_h s) 4)) s
  else s.

(** [_time_increment], one definition per statement of its body, in the
    order of the source. *)

(* _DATA_STORE[0]++; if (_DATA_STORE[0] == 0x5A) ... *)
Definition _time_increment_second (s : state) : state :=
  let s := incr 0 s in
  if ld 0 s =? 0x5A then
    let s := st 0 0x00 s in
    let s := incr 1 s in
    set_RTC_action_bits (Z.lor (_RTC_action_bits s) BIT3) s
  else _time_carry 0 s.

(* if (_DATA_STORE[1] == 0x5A) ... *)
Definition _time_increment_minute (s : state) : state :=
  if ld 1 s =? 0x5A then
    let s := st 1 0x00 s in
    incr 2 s
  else _time_carry 1 s.

(* if (_DATA_STORE[2] == 0x24) ... *)
Definition _time_increment_hour (s : state) : state :=
  if ld 2 s =? 0x24 then
    let s := st 2 0x00 s in
    let s := incr 3 s in
    incr 4 s
  else _time_carry 2 s.

(* if (_DATA_STORE[3] == 0x08) ... *)
Definition _time_increment_day (s : state) : state :=
  if ld 3 s =? 0x08 then st 3 0x01 s else s.

(* switch (_DATA_STORE[4]) ... *)
Definition _time_increment_date (s : state) : state :=
  let next_month (s : state) := incr 5 (st 4 0x01 s) in
  match ld 4 s with
  | 0x29 =>
      if (ld 5 s =? 0x02) && negb (truthy (_is_leap_year s))
      then next_month s else s
  | 0x30 =>
      if ld 5 s =? 0x02 then next_month s else s
  | 0x31 =>
      if (ld 5 s =? 0x04) || (ld 5 s =? 0x06) || (ld 5 s =? 0x09)
         || (ld 5 s =? 0x11)
      then next_month s else s
  | 0x32 =>
      if (ld 5 s =? 0x01) || (ld 5 s =? 0x03) || (ld 5 s =? 0x05)
         || (ld 5 s =? 0x07) || (ld 5 s =? 0x08) || (ld 5 s =? 0x10)
         || (ld 5 s =? 0x12)
      then next_month s else s
  | _ => _time_carry 4 s
  end.

(* if (_DATA_STORE[5] == 0x13) ... *)
Definition _time_increment_month (s : state) : state :=
  if ld 5 s =? 0x13 then
    let s := st 5 0x01 s in
    let s := incr 6 s in
    set_RTC_action_bits (Z.lor (_RTC_action_bits s) BIT2) s
  else _time_carry 5 s.

(* if (_DATA_STORE[6] == 0x9A) ... *)
Definition _time_increment_year (s : state) : state :=
  if ld 6 s =? 0x9A then
    let s := st 6 0x00 s in
    incr 7 s
  else _time_carry 6 s.

(* if (_RTC_action_bits & BIT2) ... *)
Definition _time_increment_leap (s : state) : state :=
  if truthy (Z.land (_RTC_action_bits s) BIT2) then
    let s := _check_leap_year s in
    set_RTC_action_bits (Z.land (_RTC_action_bits s) (Z.lnot BIT2)) s
  else s.

(* if (_DATA_STORE[7] == 0x9A) ... *)
Definition _time_increment_century (s : state) : state :=
  if ld 7 s =? 0x9A then st 7 0x00 s else _time_carry 7 s.

Definition _time_increment (s : state) : state :=
  let s := _time_increment_second s in
  let s := _time_increment_minute s in
  let s := _time_increment_hour s in
  let s := _time_increment_day s in
  let s := _time_increment_date s in
  let s := _time_increment_month s in
  let s := _time_increment_year s in
  let s := _time_increment_leap s in
  _time_increment_century s.

(** ** The alarm engine *)

(** One of the six [if] statements of [_check_alarms]: the alarm whose
    minute, hour and day mask sit at offsets [m], [h], [d] and whose flag
    is [bit].  The sum [_DATA_STORE[2] + 0x80] is computed in [int] and is
    not truncated. *)
Definition alarm_matches (m h d : nat) (day_mask_bit : Z) (s : state) : bool :=
  (ld 1 s =? ld m s) && (ld 2 s + 0x80 =? ld h s)
  && (truthy (Z.land (ld d s) 0x80) || truthy (Z.land (ld d s) day_mask_bit)).

Definition check_alarm (m h d : nat) (bit day_mask_bit : Z) (s : state) : state :=
  if alarm_matches m h d day_mask_bit s
  then st 30 (Z.lor (ld 30 s) bit) s else s.

Definition day_mask_of (day : Z) : Z :=
  match day with
  | 0x01 => MON
  | 0x02 => TUE
  | 0x03 => WED
  | 0x04 => THU
  | 0x05 => FRI
  | 0x06 => SAT
  | 0x07 => SUN
  | _ => 0x00
  end.

(** [_check_alarms] *)
Definition _check_alarms (s : state) : state :=
  let day_mask_bit := day_mask_of (ld 3 s) in
  let s := check_alarm 8 9 10 BIT0 day_mask_bit s in
  let s := check_alarm 11 12 13 BIT1 day_mask_bit s in
  let s := check_alarm 14 15 16 BIT2 day_mask_bit s in
  let s := check_alarm 17 18 19 BIT3 day_mask_bit s in
  let s := check_alarm 20 21 22 BIT4 day_mask_bit s in
  check_alarm 23 24 25 BIT5 day_mask_bit s.

(** ** The tick scheduler *)

Definition _second_div : Z := 2048.

(** [Timer_A0], the timer capture interrupt *)
Definition Timer_A0 (s : state) : state :=
  let s := set_TACCR0 (u16 (TACCR0 s + _second_div)) s in
  let s := set_second_tick (u16 (_second_tick s + 1)) s in
  match _second_tick s with
  | 2 => set_RTC_action_bits (Z.lor (_RTC_action_bits s) BIT4) s
  | 4 => s
  | 6 => set_RTC_action_bits (Z.lor (_RTC_action_bits s) BIT5) s
  | 8 => set_P1OUT (Z.lxor (P1OUT s) BIT0) s
  | 10 => s
  | 12 => set_RTC_action_bits (Z.lor (_RTC_action_bits s) BIT0) s
  | 14 => s
  | 16 =>
      let s := set_P1OUT (Z.lxor (P1OUT s) BIT0) s in
      set_second_tick 0 s
  | _ => s
  end.

(** ** The bus callbacks *)

(** A store or a load through [_DATA_STORE + offset] with a run-time
    offset: the source checks no bound, so an access outside the array has
    no defined result; it is the [None] of the embedding. *)
Definition in_store (off : Z) (s : state) : bool :=
  (0 <=? off) && (off <? Z.of_nat (length (_DATA_STORE s))).

Definition store_at (off v : Z) (s : state) : option state :=
  if in_store off s then Some (st (Z.to_nat off) v s) else None.

Definition load_at (off : Z) (s : state) : option Z :=
  if in_store off s then Some (ld (Z.to_nat off) s) else None.

(** [USI_I2C_slave_TX_callback]: the offset of the byte to send, and the
    state with the cursor advanced. *)
Definition USI_I2C_slave_TX_callback (s : state) : Z * state :=
  let _I2C_data_offset_1 := _I2C_data_offset s in
  let s := set_I2C_data_offset (u8 (_I2C_data_offset s + 1)) s in
  (_I2C_data_offset_1, s).

(** One of the six guards of the [case 30] branch, [flags] being
    [_DATA_STORE[30]]. *)
Definition keep_flag (bit flags byte_data : Z) : Z :=
  if negb (truthy (Z.land flags bit)) && truthy (Z.land byte_data bit)
  then Z.land byte_data (Z.lnot bit) else byte_data.

(** [USI_I2C_slave_RX_callback]: the returned error code and the new
    state. *)
Definition USI_I2C_slave_RX_callback (byte : Z) (s : state)
  : option (Z * state) :=
  let byte_data := byte in
  if negb (truthy (_USI_I2C_slave_n_byte s)) then
    let s := set_I2C_data_offset byte_data s in
    let s := set_n_byte 1 s in
    Some (0, s)
  else
    let stored :=
      if negb (_I2C_data_offset s =? 26) && negb (_I2C_data_offset s =? 27)
      then
        match _I2C_data_offset s with
        | 30 =>
            let byte_data := keep_flag BIT0 (ld 30 s) byte_data in
            let byte_data := keep_flag BIT1 (ld 30 s) byte_data in
            let byte_data := keep_flag BIT2 (ld 30 s) byte_data in
            let byte_data := keep_flag BIT3 (ld 30 s) byte_data in
            let byte_data := keep_flag BIT4 (ld 30 s) byte_data in
            let byte_data := keep_flag BIT5 (ld 30 s) byte_data in
            Some (st 30 byte_data s)
        | _ => store_at (_I2C_data_offset s) byte_data s
        end
      else Some s in
    match stored with
    | Some s => Some (0, set_I2C_data_offset (u8 (_I2C_data_offset s + 1)) s)
    | None => None
    end.

Definition _USI_I2C_slave_reset_byte_count (s : state) : state :=
  set_n_byte 0 s.

(** ** The USI interrupt handler of the I2C slave library *)

(** The globals of the library, the four USI registers it drives, and the
    globals of main.c its callbacks work on. *)
Record usi : Type := mkUsi {
  rtc : state;
  _USI_I2C_slave_own_addr : Z;
  _USI_I2C_slave_state : Z;
  _USI_I2C_slave_RX_buff : Z;
  USICTL0 : Z;
  USICTL1 : Z;
  USICNT : Z;
  USISRL : Z
}.

Definition set_rtc (v : state) (u : usi) : usi :=
  mkUsi v (_USI_I2C_slave_own_addr u) (_USI_I2C_slave_state u)
    (_USI_I2C_slave_RX_buff u) (USICTL0 u) (USICTL1 u) (USICNT u) (USISRL u).
Definition set_slave_state (v : Z) (u : usi) : usi :=
  mkUsi (rtc u) (_USI_I2C_slave_own_addr u) v
    (_USI_I2C_slave_RX_buff u) (USICTL0 u) (USICTL1 u) (USICNT u) (USISRL u).
Definition set_RX_buff (v : Z) (u : usi) : usi :=
  mkUsi (rtc u) (_USI_I2C_slave_own_addr u) (_USI_I2C_slave_state u)
    v (USICTL0 u) (USICTL1 u) (USICNT u) (USISRL u).
Definition set_USICTL0 (v : Z) (u : usi) : usi :=
  mkUsi (rtc u) (_USI_I2C_slave_own_addr u) (_USI_I2C_slave_state u)
    (_USI_I2C_slave_RX_buff u) v (USICTL1 u) (USICNT u) (USISRL u).
Definition set_USICTL1 (v : Z) (u : usi) : usi :=
  mkUsi (rtc u) (_USI_I2C_slave_own_addr u) (_USI_I2C_slave_state u)
    (_USI_I2C_slave_RX_buff u) (USICTL0 u) v (USICNT u) (USISRL u).
Definition set_USICNT (v : Z) (u : usi) : usi :=
  mkUsi (rtc u) (_USI_I2C_slave_own_addr u) (_USI_I2C_slave_state u)
    (_USI_I2C_slave_RX_buff u) (USICTL0 u) (USICTL1 u) v (USISRL u).
Definition set_USISRL (v : Z) (u : usi) : usi :=
  mkUsi (rtc u) (_USI_I2C_slave_own_addr u) (_USI_I2C_slave_state u)
    (_USI_I2C_slave_RX_buff u) (USICTL0 u) (USICTL1 u) (USICNT u) v.

Section USI.

(** The control-bit masks of the USI module are defined by the device
    header, which is not part of the repository: the handler is embedded
    for any value of them. *)
Variables USIOE USISTP USISTTIFG USIIFG : Z.

(* case 12, and the else branch of case 15 *)
Definition send_byte (u : usi) : option usi :=
  let (off, r) := USI_I2C_slave_TX_callback (rtc u) in
  match load_at off r with
  | Some v =>
      let u := set_rtc r u in
      let u := set_USISRL v u in
      let u := set_USICTL0 (Z.lor (USICTL0 u) USIOE) u in
      let u := set_USICNT (Z.lor (USICNT u) 0x08) u in
      Some (set_slave_state 14 u)
  | None => None
  end.

(* if (USICTL1 & USISTTIFG) ... *)
Definition USI_INT_start (u : usi) : usi :=
  if truthy (Z.land (USICTL1 u) USISTTIFG) then
    let u := set_USICTL1 (Z.land (USICTL1 u) (Z.lnot USISTP)) u in
    let u := set_USICNT (Z.land (USICNT u) (Z.lnot 0x1F)) u in
    let u := set_USISRL 0x00 u in
    let u := set_USICTL1 (Z.land (USICTL1 u) (Z.lnot USIIFG)) u in
    let u := set_slave_state 2 u in
    set_rtc (_USI_I2C_slave_reset_byte_count (rtc u)) u
  else u.

(* switch (_USI_I2C_slave_state) ... *)
Definition USI_INT_switch (u : usi) : option usi :=
  match _USI_I2C_slave_state u with
  | 0 => Some u
  | 2 =>
      let u := set_USICTL0 (Z.land (USICTL0 u) (Z.lnot USIOE)) u in
      let u := set_USICNT (Z.lor (USICNT u) 0x08) u in
      let u := set_USICTL1 (Z.land (USICTL1 u) (Z.lnot USISTTIFG)) u in
      Some (set_slave_state 3 u)
  | 3 =>
      let u :=
        if negb (Z.shiftr (USISRL u) 1 =? _USI_I2C_slave_own_addr u) then
          let u := set_USISRL 0xff u in
          set_slave_state 6 u
        else
          let u :=
            if Z.shiftl (_USI_I2C_slave_own_addr u) 1 =? USISRL u
            then set_slave_state 11 u
            else set_slave_state 12 u in
          set_USISRL 0x00 u in
      let u := set_USICTL0 (Z.lor (USICTL0 u) USIOE) u in
      Some (set_USICNT (Z.lor (USICNT u) 0x01) u)
  | 6 =>
      let u := set_USICTL0 (Z.land (USICTL0 u) (Z.lnot USIOE)) u in
      let u := set_USICTL1 (Z.land (USICTL1 u) (Z.lnot USIIFG)) u in
      Some (set_slave_state 0 u)
  | 11 =>
      let u := set_USICTL0 (Z.land (USICTL0 u) (Z.lnot USIOE)) u in
      let u := set_USICNT (Z.lor (USICNT u) 0x08) u in
      Some (set_slave_state 13 u)
  | 12 => send_byte u
  | 13 =>
      let u := set_RX_buff (USISRL u) u in
      match USI_I2C_slave_RX_callback (_USI_I2C_slave_RX_buff u) (rtc u) with
      | Some (err, r) =>
          let u := set_rtc r u in
          let u :=
            if negb (truthy err) then
              let u := set_USISRL 0x00 u in
              set_slave_state 11 u
            else
              let u := set_USISRL 0xff u in
              set_slave_state 6 u in
          let u := set_USICTL0 (Z.lor (USICTL0 u) USIOE) u in
          Some (set_USICNT (Z.lor (USICNT u) 0x01) u)
      | None => None
      end
  | 14 =>
      let u := set_USICTL0 (Z.land (USICTL0 u) (Z.lnot USIOE)) u in
      let u := set_USICNT (Z.lor (USICNT u) 0x01) u in
      Some (set_slave_state 15 u)
  | 15 =>
      if truthy (Z.land (USISRL u) 1) then
        let u := set_USICTL0 (Z.land (USICTL0 u) (Z.lnot USIOE)) u in
        let u := set_USICTL1 (Z.land (USICTL1 u) (Z.lnot USIIFG)) u in
        Some (set_slave_state 0 u)
      else send_byte u
  | _ => Some u
  end.

(** [USI_INT] *)
Definition USI_INT (u : usi) : option usi :=
  USI_INT_switch (USI_INT_start u).

End USI.

(** A write transaction seen from [USI_I2C_slave_RX_callback]: the bytes
    the handler passes to it, one call per byte, in order. *)
Fixpoint receive (bytes : list Z) (s : state) : option state :=
  match bytes with
  | [] => Some s
  | b :: rest =>
      match USI_I2C_slave_RX_callback b s with
      | Some (_, s') => receive rest s'
      | None => None
      end
  end.

(** ** Vocabulary of the specification *)

Definition lo_digit (b : Z) : Z := Z.land b 0x0F.
Definition hi_digit (b : Z) : Z := Z.shiftr b 4.

(** Two BCD digits, each in 0..9. *)
Definition is_bcd (b : Z) : bool :=
  (0 <=? b) && (lo_digit b <? 10) && (hi_digit b <? 10).
Definition bcd_value (b : Z) : Z := 10 * hi_digit b + lo_digit b.

(** A BCD byte between two BCD bounds (BCD bytes are ordered like the
    numbers they denote). *)
Definition bcd_in (lo hi b : Z) : bool :=
  is_bcd b && (lo <=? b) && (b <=? hi).

Definition is_u8b (b : Z) : bool := (0 <=? b) && (b <? 256).

(** The register file is an array of 31 unsigned chars. *)
Definition store_okb (s : state) : bool :=
  (length (_DATA_STORE s) =? 31)%nat && forallb is_u8b (_DATA_STORE s).

(** Last date of a month, in BCD; February has 29 days when [leap]. *)
Definition last_date (leap : bool) (month : Z) : Z :=
  if month =? 0x02 then (if leap then 0x29 else 0x28)
  else if (month =? 0x04) || (month =? 0x06) || (month =? 0x09)
          || (month =? 0x11) then 0x30
  else 0x31.

(** The time/date bytes describe an instant of the calendar, February
    having 29 days when [leap]. *)
Definition valid_instant (leap : bool) (s : state) : bool :=
  store_okb s
  && bcd_in 0x00 0x59 (ld 0 s)
  && bcd_in 0x00 0x59 (ld 1 s)
  && bcd_in 0x00 0x23 (ld 2 s)
  && bcd_in 0x01 0x07 (ld 3 s)
  && bcd_in 0x01 0x12 (ld 5 s)
  && bcd_in 0x01 (last_date leap (ld 5 s)) (ld 4 s)
  && bcd_in 0x00 0x99 (ld 6 s)
  && bcd_in 0x00 0x99 (ld 7 s).

(** A valid calendar state of the device: the length of February is the
    one its cached leap-year indicator gives. *)
Definition valid_calendar (s : state) : bool :=
  valid_instant (truthy (_is_leap_year s)) s.

(** The leap-year rule in the words of the specification. *)
Definition spec_leap (year : Z) : bool :=
  if Z.odd (hi_digit year)
  then (lo_digit year =? 2) || (lo_digit year =? 6)
  else (lo_digit year =? 4) || (lo_digit year =? 8).

(** The register file alone describes an instant of the device's calendar:
    February has 29 days in the years the leap-year rule accepts. *)
Definition calendar_valid (s : state) : bool :=
  valid_instant (spec_leap (ld 6 s)) s.

(** The date rollover rule in the words of the specification. *)
Definition spec_date_rolls (date month leap : Z) : bool :=
  ((date =? 0x29) && (month =? 0x02) && (leap =? 0))
  || ((date =? 0x30) && (month =? 0x02))
  || ((date =? 0x31)
      && ((month =? 0x04) || (month =? 0x06) || (month =? 0x09)
          || (month =? 0x11)))
  || ((date =? 0x32)
      && ((month =? 0x01) || (month =? 0x03) || (month =? 0x05)
          || (month =? 0x07) || (month =? 0x08) || (month =? 0x10)
          || (month =? 0x12))).

(** ** Assertions between the statements of [_time_increment] *)

(** A field that is valid, or one past a valid value: the state of a field
    the previous statement may have incremented and the next statement has
    not yet checked. *)
Definition pend (lo hi b : Z) : bool := bcd_in lo hi b || bcd_in lo hi (b - 1).

Definition fields (p0 p1 p2 p3 : Z -> bool) (p45 : Z -> Z -> bool)
    (p6 p7 : Z -> bool) (s : state) : bool :=
  (length (_DATA_STORE s) =? 31)%nat
  && p0 (ld 0 s) && p1 (ld 1 s) && p2 (ld 2 s) && p3 (ld 3 s)
  && p45 (ld 4 s) (ld 5 s) && p6 (ld 6 s) && p7 (ld 7 s).

Definition date_ok (leap : bool) (d m : Z) : bool :=
  bcd_in 0x01 0x12 m && bcd_in 0x01 (last_date leap m) d.
Definition date_pend (leap : bool) (d m : Z) : bool :=
  bcd_in 0x01 0x12 m && pend 0x01 (last_date leap m) d.
Definition month_pend (d m : Z) : bool := is_bcd d && pend 0x01 0x12 m.
Definition date_done (d m : Z) : bool := is_bcd d && is_bcd m.

(** [inv0] holds on entry, [invk] after the k-th statement. *)
Definition inv0 (leap : bool) : state -> bool :=
  fields (bcd_in 0 0x59) (bcd_in 0 0x59) (bcd_in 0 0x23) (bcd_in 1 7)
    (date_ok leap) (bcd_in 0 0x99) (bcd_in 0 0x99).
Definition inv1 (leap : bool) : state -> bool :=
  fields is_bcd (pend 0 0x59) (bcd_in 0 0x23) (bcd_in 1 7)
    (date_ok leap) (bcd_in 0 0x99) (bcd_in 0 0x99).
Definition inv2 (leap : bool) : state -> bool :=
  fields is_bcd is_bcd (pend 0 0x23) (bcd_in 1 7)
    (date_ok leap) (bcd_in 0 0x99) (bcd_in 0 0x99).
Definition inv3 (leap : bool) : state -> bool :=
  fields is_bcd is_bcd is_bcd (pend 1 7)
    (date_pend leap) (bcd_in 0 0x99) (bcd_in 0 0x99).
Definition inv4 (leap : bool) : state -> bool :=
  fields is_bcd is_bcd is_bcd is_bcd
    (date_pend leap) (bcd_in 0 0x99) (bcd_in 0 0x99).
Definition inv5 : state -> bool :=
  fields is_bcd is_bcd is_bcd is_bcd
    month_pend (bcd_in 0 0x99) (bcd_in 0 0x99).
Definition inv6 : state -> bool :=
  fields is_bcd is_bcd is_bcd is_bcd date_done (pend 0 0x99) (bcd_in 0 0x99).
Definition inv7 : state -> bool :=
  fields is_bcd is_bcd is_bcd is_bcd date_done is_bcd (pend 0 0x99).
Definition inv8 : state -> bool :=
  fields is_bcd is_bcd is_bcd is_bcd date_done is_bcd is_bcd.

(** ** Byte-level readings of the source tests *)

(** The two tests of the source, on the year byte alone. *)
Definition leap_test (y : Z) : bool :=
  if truthy (Z.land y 0x10)
  then (u8 (Z.shiftl y 4) =? 0x20) || (u8 (Z.shiftl y 4) =? 0x60)
  else (u8 (Z.shiftl y 4) =? 0x40) || (u8 (Z.shiftl y 4) =? 0x80).

(** The dates the [switch] names. *)
Definition date_case (d : Z) : bool :=
  (d =? 0x29) || (d =? 0x30) || (d =? 0x31) || (d =? 0x32).

(** ** Frames *)

(** [s'] differs from [s] in the register file at offsets [lo] .. [hi - 1]
    at most, and a raised alarm-check request (BIT3 of the action bits) is
    still raised in [s']. *)
Definition keeps (lo hi : nat) (s s' : state) : Prop :=
  length (_DATA_STORE s') = length (_DATA_STORE s)
  /\ (forall i : nat, (i < lo \/ hi <= i)%nat -> ld i s' = ld i s)
  /\ (Z.testbit (_RTC_action_bits s) 3 = true ->
      Z.testbit (_RTC_action_bits s') 3 = true).

(** [s'] has the register file and the leap-year indicator of [s]. *)
Definition same_regs (s s' : state) : Prop :=
  _DATA_STORE s' = _DATA_STORE s /\ _is_leap_year s' = _is_leap_year s.

(** ** The alarm registers *)

(** Offsets of the minute, hour and day mask of alarm [k] (0 .. 5), whose
    flag is bit [k] of offset 30. *)
Definition alarm_minute (k : nat) : nat := 8 + 3 * k.
Definition alarm_hour (k : nat) : nat := 9 + 3 * k.
Definition alarm_days (k : nat) : nat := 10 + 3 * k.

(** ** The flag write *)

(** The byte the [case 30] branch stores, from the flag register and the
    received byte. *)
Definition flag_write (flags byte : Z) : Z :=
  keep_flag BIT5 flags (keep_flag BIT4 flags (keep_flag BIT3 flags
    (keep_flag BIT2 flags (keep_flag BIT1 flags
      (keep_flag BIT0 flags byte))))).

(** ** Sample states *)

(** The state after power-up: [_init_DS] and [_check_leap_year] run on the
    zeroed statics, as in [main]. *)
Definition power_up : state := _check_leap_year (_init_DS statics).

(** The power-up state with the time/date bytes and the cached leap-year
    indicator replaced. *)
Definition at_time (clock : list Z) (leap : Z) : state :=
  set_is_leap_year leap
    (set_DATA_STORE (clock ++ drop (length clock) (_DATA_STORE power_up))
       power_up).

(* 1999-12-31 23:59:59, a Friday *)
Definition new_year_eve : state :=
  at_time [0x59; 0x59; 0x23; 0x05; 0x31; 0x12; 0x99; 0x19] 0.

(* 2004-02-28 10:15:59, a Saturday, in a year the device holds leap *)
Definition leap_february : state :=
  at_time [0x59; 0x15; 0x10; 0x06; 0x28; 0x02; 0x04; 0x20] 1.

(* 14:30 on a Monday; alarm 1 set for 14:30 on any day, alarm 2 holds the
   same time without the match-enable bit *)
Definition alarm_time : state :=
  st 12 0x14 (st 11 0x30
    (st 10 0x80 (st 9 0x94 (st 8 0x30
      (at_time [0x00; 0x30; 0x14; 0x01; 0x01; 0x01; 0x00; 0x20] 0))))).

(* a write transaction has placed the cursor on the flag register, which
   holds no flag *)
Definition flags_addressed : state :=
  set_I2C_data_offset 30 (set_n_byte 1 power_up).

(* the handler in state 13 with a received byte in the shift register,
   the cursor on the configuration byte; and the same at a start
   condition, for a device whose start flag is the mask 0x02 *)
Definition receiving (byte : Z) : usi :=
  mkUsi (set_I2C_data_offset 28 (set_n_byte 1 power_up))
    _I2C_addr 13 0 0 0 0 byte.
Definition started : usi :=
  mkUsi (set_I2C_data_offset 28 (set_n_byte 1 power_up))
    _I2C_addr 13 0 0 0x02 0 0.

(* 2004-02-29 23:59:59, a Sunday, with the leap-year indicator set *)
Definition leap_day_end : state :=
  at_time [0x59; 0x59; 0x23; 0x07; 0x29; 0x02; 0x04; 0x20] 1.

(* 2004-02-29 10:15:30 with the leap-year indicator left at 0 *)
Definition stale_february : state :=
  at_time [0x30; 0x15; 0x10; 0x07; 0x29; 0x02; 0x04; 0x20] 0.
(** ** Proof tools *)

Lemma lo_digit_mod b : lo_digit b = b mod 16.
Proof.
  unfold lo_digit. change 0x0F with (Z.ones 4). now rewrite Z.land_ones by lia.
Qed.

Lemma hi_digit_div b : hi_digit b = b / 16.
Proof. unfold hi_digit. now rewrite Z.shiftr_div_pow2 by lia. Qed.

Lemma shl4 b : Z.shiftl b 4 = b * 16.
Proof. now rewrite Z.shiftl_mul_pow2 by lia. Qed.

Lemma shr4 b : Z.shiftr b 4 = b / 16.
Proof. now rewrite Z.shiftr_div_pow2 by lia. Qed.

(** A register file of known length is replaced by its 31 bytes. *)
Ltac explode_list l H :=
  do 31 (destruct l as [|? l]; [discriminate H|]);
  destruct l; [clear H|discriminate H].

Ltac explode s :=
  let l := fresh "l" in
  destruct s as [l tk lp off ab bl bh nb p1 p2 tc];
  match goal with
  | Hl : length (_DATA_STORE _) = 31%nat |- _ =>
      cbn [_DATA_STORE] in Hl; explode_list l Hl
  end.

(** Symbolic execution of the statements of the time engine. *)
Ltac run :=
  cbv [_time_increment_second _time_increment_minute _time_increment_hour
       _time_increment_day _time_increment_month _time_increment_year
       _time_increment_century _time_increment_leap _check_leap_year
       _time_carry incr st ld
       set_DATA_STORE set_RTC_byte_l set_RTC_byte_h set_RTC_action_bits
       set_is_leap_year
       _DATA_STORE _RTC_byte_l _RTC_byte_h _RTC_action_bits _second_tick
       _is_leap_year _I2C_data_offset _USI_I2C_slave_n_byte P1OUT P2OUT
       TACCR0] in *;
  cbn [lookup_total list_lookup_total insert list_insert length Nat.eqb
       andb] in *.

(** Byte arithmetic: digits, shifts and truncations as divisions. *)
Ltac arith :=
  unfold pend, bcd_in, is_bcd, u8, truthy in *;
  rewrite ?lo_digit_mod, ?hi_digit_div, ?shl4, ?shr4 in *;
  Z.div_mod_to_equations; lia.

Ltac split_ifs :=
  repeat match goal with
  | |- context [if ?c then _ else _] => destruct c eqn:?
  end.

Ltac split_hyps :=
  repeat match goal with
  | H : context [if ?c then _ else _] |- _ => destruct c eqn:?
  end.

Ltac conj :=
  rewrite ?andb_true_iff in *;
  repeat match goal with H : _ /\ _ |- _ => destruct H end;
  repeat split; try assumption.

Ltac finish := conj; try arith.

Lemma fields_length p0 p1 p2 p3 p45 p6 p7 s :
  fields p0 p1 p2 p3 p45 p6 p7 s = true -> length (_DATA_STORE s) = 31%nat.
Proof.
  unfold fields. rewrite !andb_true_iff. intros H. apply Nat.eqb_eq. tauto.
Qed.

Ltac start s :=
  let H := fresh "Hf" in
  unfold inv0, inv1, inv2, inv3, inv4, inv5, inv6, inv7, inv8;
  intros H; pose proof (fields_length _ _ _ _ _ _ _ _ H);
  explode s; revert H; unfold fields.

(** The [switch] on the date as a chain of comparisons. *)
Lemma _time_increment_date_eq s :
  _time_increment_date s =
  let next_month (s : state) := incr 5 (st 4 0x01 s) in
  if ld 4 s =? 0x29 then
    if (ld 5 s =? 0x02) && negb (truthy (_is_leap_year s))
    then next_month s else s
  else if ld 4 s =? 0x30 then
    if ld 5 s =? 0x02 then next_month s else s
  else if ld 4 s =? 0x31 then
    if (ld 5 s =? 0x04) || (ld 5 s =? 0x06) || (ld 5 s =? 0x09)
       || (ld 5 s =? 0x11)
    then next_month s else s
  else if ld 4 s =? 0x32 then
    if (ld 5 s =? 0x01) || (ld 5 s =? 0x03) || (ld 5 s =? 0x05)
       || (ld 5 s =? 0x07) || (ld 5 s =? 0x08) || (ld 5 s =? 0x10)
       || (ld 5 s =? 0x12)
    then next_month s else s
  else _time_carry 4 s.
Proof.
  unfold _time_increment_date.
  destruct (ld 4 s) as [|p|p]; try reflexivity.
  do 7 (try reflexivity; destruct p as [p|p|]; try reflexivity).
Qed.

(** [_time_increment] as the composition of its statements. *)
Lemma _time_increment_eq s :
  _time_increment s =
  _time_increment_century
    (_time_increment_leap
       (_time_increment_year
          (_time_increment_month
             (_time_increment_date
                (_time_increment_day
                   (_time_increment_hour
                      (_time_increment_minute
                         (_time_increment_second s)))))))).
Proof. reflexivity. Qed.

(** ** BCD validity through [_time_increment] *)

Section Invariants.

Variable leap : bool.

Lemma second_inv s :
  inv0 leap s = true -> inv1 leap (_time_increment_second s) = true.
Proof. start s. run. split_ifs; run; intros; finish. Qed.

Lemma minute_inv s :
  inv1 leap s = true -> inv2 leap (_time_increment_minute s) = true.
Proof. start s. run. split_ifs; run; intros; finish. Qed.

Lemma hour_inv s :
  inv2 leap s = true -> inv3 leap (_time_increment_hour s) = true.
Proof.
  start s. run.
  split_ifs; run; intros; unfold date_ok, date_pend in *; finish.
Qed.

Lemma day_inv s :
  inv3 leap s = true -> inv4 leap (_time_increment_day s) = true.
Proof. start s. run. split_ifs; run; intros; finish. Qed.

Lemma date_inv s :
  inv4 leap s = true -> inv5 (_time_increment_date s) = true.
Proof.
  rewrite _time_increment_date_eq.
  start s. run.
  split_ifs; run; intros; unfold date_pend, month_pend, last_date in *;
    split_hyps; finish.
Qed.

End Invariants.

Lemma month_inv s : inv5 s = true -> inv6 (_time_increment_month s) = true.
Proof.
  start s. run. split_ifs; run; intros; unfold date_done, month_pend in *;
    finish.
Qed.

Lemma year_inv s : inv6 s = true -> inv7 (_time_increment_year s) = true.
Proof. start s. run. split_ifs; run; intros; finish. Qed.

Lemma leap_inv s : inv7 s = true -> inv7 (_time_increment_leap s) = true.
Proof. start s. run. split_ifs; run; intros; finish. Qed.

Lemma century_inv s : inv7 s = true -> inv8 (_time_increment_century s) = true.
Proof. start s. run. split_ifs; run; intros; finish. Qed.

Lemma valid_instant_inv0 leap s :
  valid_instant leap s = true -> inv0 leap s = true.
Proof.
  unfold valid_instant, inv0, fields, date_ok, store_okb.
  rewrite !andb_true_iff. tauto.
Qed.

Lemma inv8_bcd s i :
  inv8 s = true -> (i < 8)%nat -> is_bcd (ld i s) = true.
Proof.
  unfold inv8, fields, date_done. rewrite !andb_true_iff. intros H Hi.
  do 8 (destruct i as [|i]; [tauto|]). lia.
Qed.

(** C4: from a register file whose time/date bytes are BCD and describe
    an instant of the calendar (February having 28 or 29 days, [leap]),
    one call of [_time_increment] leaves two BCD digits in each of the
    bytes 0..7. *)
Theorem time_increment_keeps_bcd (leap : bool) (s : state) (i : nat) :
  valid_instant leap s = true ->
  (i < 8)%nat ->
  is_bcd (ld i (_time_increment s)) = true.
Proof.
  intros Hv Hi. apply inv8_bcd; [|exact Hi].
  rewrite _time_increment_eq.
  apply century_inv, leap_inv, year_inv, month_inv, (date_inv leap), day_inv,
    hour_inv, minute_inv, second_inv, valid_instant_inv0, Hv.
Qed.

Lemma time_increment_keeps_bcd_witness :
  is_bcd (ld 4 (_time_increment new_year_eve)) = true.
Proof.
  apply (time_increment_keeps_bcd false new_year_eve 4);
    [vm_compute; reflexivity | lia].
Defined.

(** ** The leap-year test *)

(** A property of every unsigned char, checked on the 256 values. *)
Lemma byte_forall (P : Z -> bool) :
  forallb P (map Z.of_nat (seq 0 256)) = true ->
  forall b, is_u8 b -> P b = true.
Proof.
  intros H b [Hlo Hhi].
  rewrite forallb_forall in H. apply H.
  apply in_map_iff. exists (Z.to_nat b). split; [lia|].
  apply in_seq. lia.
Qed.

Lemma leap_test_spec y : is_u8 y -> leap_test y = spec_leap y.
Proof.
  intros Hy.
  apply eqb_prop.
  apply (byte_forall (fun y => eqb (leap_test y) (spec_leap y)));
    [vm_compute; reflexivity | exact Hy].
Qed.

Lemma check_leap_year_flag s :
  _is_leap_year (_check_leap_year s) = if leap_test (ld 6 s) then 1 else 0.
Proof.
  destruct s as [ds tk lp off ab bl bh nb p1 p2 tc].
  cbv [_check_leap_year leap_test set_is_leap_year set_RTC_byte_l _RTC_byte_l
       ld _DATA_STORE _is_leap_year].
  destruct (truthy _); destruct (_ || _); reflexivity.
Qed.

Lemma check_leap_year_store s :
  _DATA_STORE (_check_leap_year s) = _DATA_STORE s.
Proof.
  destruct s as [ds tk lp off ab bl bh nb p1 p2 tc].
  cbv [_check_leap_year set_is_leap_year set_RTC_byte_l _RTC_byte_l
       ld _DATA_STORE _is_leap_year].
  destruct (truthy _); destruct (_ || _); reflexivity.
Qed.

(** C2: [_check_leap_year] leaves the register file alone and sets the
    indicator from the year byte (offset 6) only: to 1 exactly when the tens
    digit is odd and the units digit is 2 or 6, or the tens digit is even and
    the units digit is 4 or 8, to 0 otherwise; two states with the same year
    byte get the same indicator whatever their century bytes; year 04 is
    leap, year 20 is not. *)
Theorem check_leap_year_rule (s : state) :
  is_u8 (ld 6 s) ->
  _is_leap_year (_check_leap_year s) = (if spec_leap (ld 6 s) then 1 else 0)
  /\ _DATA_STORE (_check_leap_year s) = _DATA_STORE s
  /\ (forall s' : state,
        ld 6 s' = ld 6 s ->
        _is_leap_year (_check_leap_year s') = _is_leap_year (_check_leap_year s))
  /\ (ld 6 s = 0x04 -> _is_leap_year (_check_leap_year s) = 1)
  /\ (ld 6 s = 0x20 -> _is_leap_year (_check_leap_year s) = 0).
Proof.
  intros Hy.
  assert (E : _is_leap_year (_check_leap_year s)
              = if spec_leap (ld 6 s) then 1 else 0)
    by (rewrite check_leap_year_flag, leap_test_spec by exact Hy; reflexivity).
  split; [exact E|]. split; [apply check_leap_year_store|].
  split; [|split].
  - intros s' Hs'. rewrite !check_leap_year_flag, Hs'. reflexivity.
  - intros H4. rewrite E, H4. reflexivity.
  - intros H20. rewrite E, H20. reflexivity.
Qed.

Lemma check_leap_year_rule_witness :
  _is_leap_year (_check_leap_year leap_february) = 1.
Proof.
  apply (check_leap_year_rule leap_february); [|reflexivity].
  change (ld 6 leap_february) with 0x04. unfold is_u8. lia.
Defined.

(** ** The date switch *)

(** C3: the [switch] on the date (offset 4) sets the date to 0x01 and
    increments the month exactly when the date is 0x29 in February with the
    leap-year indicator at 0, 0x30 in February, 0x31 in April, June,
    September or November, or 0x32 in one of the other seven months; in every
    other case the month is not touched: a date the [switch] names stays as
    it is, any other date only goes through [_time_carry]. *)
Theorem date_switch_rollover (s : state) :
  _time_increment_date s
  = (if spec_date_rolls (ld 4 s) (ld 5 s) (_is_leap_year s)
     then incr 5 (st 4 0x01 s)
     else if date_case (ld 4 s) then s else _time_carry 4 s)
  /\ (length (_DATA_STORE s) = 31%nat ->
      if spec_date_rolls (ld 4 s) (ld 5 s) (_is_leap_year s)
      then ld 4 (_time_increment_date s) = 0x01
           /\ ld 5 (_time_increment_date s) = u8 (ld 5 s + 1)
      else ld 5 (_time_increment_date s) = ld 5 s).
Proof.
  assert (E : _time_increment_date s
    = (if spec_date_rolls (ld 4 s) (ld 5 s) (_is_leap_year s)
       then incr 5 (st 4 0x01 s)
       else if date_case (ld 4 s) then s else _time_carry 4 s)).
  { rewrite _time_increment_date_eq. cbv zeta.
    unfold spec_date_rolls, date_case, truthy.
    destruct (ld 4 s =? 0x29) eqn:E29.
    { apply Z.eqb_eq in E29. rewrite E29. cbn [Z.eqb Pos.eqb orb andb].
      rewrite negb_involutive, !orb_false_r.
      destruct (_ && _); reflexivity. }
    destruct (ld 4 s =? 0x30) eqn:E30.
    { apply Z.eqb_eq in E30. rewrite E30. cbn [Z.eqb Pos.eqb orb andb].
      rewrite !orb_false_r.
      destruct (_ =? _); reflexivity. }
    destruct (ld 4 s =? 0x31) eqn:E31.
    { apply Z.eqb_eq in E31. rewrite E31. cbn [Z.eqb Pos.eqb orb andb].
      rewrite !orb_false_r.
      destruct (_ || _); reflexivity. }
    destruct (ld 4 s =? 0x32) eqn:E32.
    { cbn [orb andb]. destruct (_ || _); reflexivity. }
    reflexivity. }
  split; [exact E|].
  intros Hlen. rewrite E.
  destruct (spec_date_rolls _ _ _).
  - explode s. run. split; reflexivity.
  - destruct (date_case _); [reflexivity|].
    explode s. run. split_ifs; reflexivity.
Qed.

Lemma date_switch_rollover_witness :
  ld 4 (_time_increment_date (st 4 0x32 new_year_eve)) = 0x01
  /\ ld 5 (_time_increment_date (st 4 0x32 new_year_eve)) = 0x13.
Proof.
  destruct (date_switch_rollover (st 4 0x32 new_year_eve)) as [_ H].
  apply H. reflexivity.
Defined.

(** ** What each statement of [_time_increment] leaves alone *)

Lemma keeps_weaken lo hi lo' hi' s s' :
  (lo' <= lo)%nat -> (hi <= hi')%nat -> keeps lo hi s s' -> keeps lo' hi' s s'.
Proof.
  intros Hlo Hhi (Hlen & Hld & Hab). repeat split; try assumption.
  intros i Hi. apply Hld. lia.
Qed.

Lemma keeps_trans lo hi s s' s'' :
  keeps lo hi s s' -> keeps lo hi s' s'' -> keeps lo hi s s''.
Proof.
  intros (Hlen & Hld & Hab) (Hlen' & Hld' & Hab'). repeat split.
  - congruence.
  - intros i Hi. rewrite Hld', Hld by exact Hi. reflexivity.
  - auto.
Qed.

Ltac run_abstract s :=
  destruct s as [ds tk lp off ab bl bh nb p1 p2 tc];
  cbv [_time_increment_second _time_increment_minute _time_increment_hour
       _time_increment_day _time_increment_month _time_increment_year
       _time_increment_century _time_increment_leap _check_leap_year
       _time_carry incr st ld keeps same_regs
       set_DATA_STORE set_RTC_byte_l set_RTC_byte_h set_RTC_action_bits
       set_is_leap_year
       _DATA_STORE _RTC_byte_l _RTC_byte_h _RTC_action_bits _second_tick
       _is_leap_year _I2C_data_offset _USI_I2C_slave_n_byte P1OUT P2OUT
       TACCR0] in *.

Ltac frame :=
  split_ifs;
  (split; [rewrite ?length_insert; reflexivity|]);
  (split; [intros i Hi; rewrite ?list_lookup_total_insert_ne by lia;
           reflexivity|]);
  intros Hb; try exact Hb.

Lemma second_keeps s : keeps 0 2 s (_time_increment_second s).
Proof.
  run_abstract s. frame.
  rewrite Z.lor_spec, Hb. reflexivity.
Qed.

Lemma minute_keeps s : keeps 1 3 s (_time_increment_minute s).
Proof. run_abstract s. frame. Qed.

Lemma hour_keeps s : keeps 2 5 s (_time_increment_hour s).
Proof. run_abstract s. frame. Qed.

Lemma day_keeps s : keeps 3 4 s (_time_increment_day s).
Proof. run_abstract s. frame. Qed.

Lemma date_keeps s : keeps 4 6 s (_time_increment_date s).
Proof. rewrite _time_increment_date_eq. run_abstract s. frame. Qed.

Lemma month_keeps s : keeps 5 7 s (_time_increment_month s).
Proof.
  run_abstract s. frame.
  rewrite Z.lor_spec, Hb. reflexivity.
Qed.

Lemma year_keeps s : keeps 6 8 s (_time_increment_year s).
Proof. run_abstract s. frame. Qed.

Lemma leap_keeps s : keeps 8 8 s (_time_increment_leap s).
Proof.
  run_abstract s. frame; rewrite Z.land_spec, Hb; reflexivity.
Qed.

Lemma century_keeps s : keeps 7 8 s (_time_increment_century s).
Proof. run_abstract s. frame. Qed.

Lemma after_minute_keeps s :
  keeps 2 8 s
    (_time_increment_century
       (_time_increment_leap
          (_time_increment_year
             (_time_increment_month
                (_time_increment_date
                   (_time_increment_day (_time_increment_hour s))))))).
Proof.
  eapply keeps_trans; [|eapply keeps_weaken; [| |apply century_keeps]; lia].
  eapply keeps_trans; [|eapply keeps_weaken; [| |apply leap_keeps]; lia].
  eapply keeps_trans; [|eapply keeps_weaken; [| |apply year_keeps]; lia].
  eapply keeps_trans; [|eapply keeps_weaken; [| |apply month_keeps]; lia].
  eapply keeps_trans; [|eapply keeps_weaken; [| |apply date_keeps]; lia].
  eapply keeps_trans; [|eapply keeps_weaken; [| |apply day_keeps]; lia].
  eapply keeps_weaken; [| |apply hour_keeps]; lia.
Qed.

Lemma time_increment_keeps s : keeps 0 8 s (_time_increment s).
Proof.
  rewrite _time_increment_eq.
  eapply keeps_trans;
    [|eapply keeps_weaken; [| |apply after_minute_keeps]; lia].
  eapply keeps_trans; [|eapply keeps_weaken; [| |apply minute_keeps]; lia].
  eapply keeps_weaken; [| |apply second_keeps]; lia.
Qed.

(** ** The seconds roll over *)

Lemma second_rolls s :
  length (_DATA_STORE s) = 31%nat ->
  ld 0 s = 0x59 ->
  let s' := _time_increment_second s in
  length (_DATA_STORE s') = 31%nat
  /\ ld 0 s' = 0x00
  /\ ld 1 s' = u8 (ld 1 s + 1)
  /\ Z.testbit (_RTC_action_bits s') 3 = true.
Proof.
  intros Hlen. explode s. run. intros ->.
  change (u8 (89 + 1) =? 90) with true. run.
  repeat split.
  rewrite Z.lor_spec. apply orb_true_r.
Qed.

Lemma minute_after_roll s m :
  length (_DATA_STORE s) = 31%nat ->
  bcd_in 0x00 0x59 m = true ->
  ld 1 s = u8 (m + 1) ->
  let s' := _time_increment_minute s in
  is_bcd (ld 1 s') = true
  /\ bcd_value (ld 1 s') = (bcd_value m + 1) mod 60.
Proof.
  intros Hlen Hm. explode s. run. intros ->.
  split_ifs; run; unfold bcd_value; finish.
Qed.

Lemma testbit3_truthy x :
  Z.testbit x 3 = true -> truthy (Z.land x BIT3) = true.
Proof.
  intros H. unfold truthy. destruct (Z.land x BIT3 =? 0) eqn:E; [|reflexivity].
  apply Z.eqb_eq in E.
  assert (F : Z.testbit (Z.land x BIT3) 3 = true)
    by (rewrite Z.land_spec, H; reflexivity).
  rewrite E in F. discriminate F.
Qed.

(** C5: when the seconds byte holds 0x59 in a valid calendar state,
    [_time_increment] leaves 0x00 in the seconds byte, the BCD successor of
    the minute (modulo 60) in the minutes byte, and BIT3 of
    [_RTC_action_bits] raised, the test the main loop makes before it calls
    [_check_alarms]; the alarm registers and the flag register (offsets 8 to
    30) are as they were: the alarm engine has not run. *)
Theorem seconds_rollover (leap : bool) (s : state) :
  valid_instant leap s = true ->
  ld 0 s = 0x59 ->
  ld 0 (_time_increment s) = 0x00
  /\ is_bcd (ld 1 (_time_increment s)) = true
  /\ bcd_value (ld 1 (_time_increment s)) = (bcd_value (ld 1 s) + 1) mod 60
  /\ truthy (Z.land (_RTC_action_bits (_time_increment s)) BIT3) = true
  /\ (forall i : nat, (8 <= i)%nat -> ld i (_time_increment s) = ld i s).
Proof.
  intros Hv H59.
  pose proof (valid_instant_inv0 _ _ Hv) as Hi.
  pose proof (fields_length _ _ _ _ _ _ _ _ Hi) as Hlen.
  assert (Hm : bcd_in 0x00 0x59 (ld 1 s) = true).
  { revert Hi. unfold inv0, fields. rewrite !andb_true_iff. tauto. }
  destruct (second_rolls s Hlen H59) as (Hlen1 & Hs0 & Hs1 & Hab1).
  destruct (minute_after_roll _ _ Hlen1 Hm Hs1) as (Hbcd & Hval).
  destruct (minute_keeps (_time_increment_second s)) as (_ & Hk2 & Hab2).
  destruct (after_minute_keeps
              (_time_increment_minute (_time_increment_second s)))
    as (_ & Hk3 & Hab3).
  pose proof (time_increment_keeps s) as (_ & Hk & _).
  rewrite _time_increment_eq in Hk |- *.
  repeat split.
  - rewrite Hk3, Hk2 by lia. exact Hs0.
  - rewrite Hk3 by lia. exact Hbcd.
  - rewrite Hk3 by lia. exact Hval.
  - apply testbit3_truthy. auto.
  - intros i Hi8. apply Hk. lia.
Qed.

Lemma seconds_rollover_witness :
  ld 1 (_time_increment new_year_eve) = 0x00
  /\ truthy (Z.land (_RTC_action_bits (_time_increment new_year_eve)) BIT3)
     = true.
Proof.
  destruct (seconds_rollover false new_year_eve) as (_ & _ & _ & Hab & _);
    [vm_compute; reflexivity | vm_compute; reflexivity |].
  split; [vm_compute; reflexivity | exact Hab].
Defined.

(** ** Statements that find nothing to do *)

Ltac noop :=
  split_ifs; try (split; reflexivity); exfalso; arith.

Lemma minute_noop s :
  bcd_in 0x00 0x59 (ld 1 s) = true -> same_regs s (_time_increment_minute s).
Proof. run_abstract s. intros H. noop. Qed.

Lemma hour_noop s :
  bcd_in 0x00 0x23 (ld 2 s) = true -> same_regs s (_time_increment_hour s).
Proof. run_abstract s. intros H. noop. Qed.

Lemma day_noop s :
  bcd_in 0x01 0x07 (ld 3 s) = true -> same_regs s (_time_increment_day s).
Proof. run_abstract s. intros H. noop. Qed.

Lemma date_noop s :
  date_ok (truthy (_is_leap_year s)) (ld 4 s) (ld 5 s) = true ->
  same_regs s (_time_increment_date s).
Proof.
  rewrite _time_increment_date_eq. run_abstract s.
  unfold date_ok, last_date. intros H. split_hyps; conj; noop.
Qed.

Lemma month_noop s :
  bcd_in 0x01 0x12 (ld 5 s) = true -> same_regs s (_time_increment_month s).
Proof. run_abstract s. intros H. noop. Qed.

Lemma year_noop s :
  bcd_in 0x00 0x99 (ld 6 s) = true -> same_regs s (_time_increment_year s).
Proof. run_abstract s. intros H. noop. Qed.

Lemma leap_store s :
  _DATA_STORE (_time_increment_leap s) = _DATA_STORE s.
Proof. run_abstract s. split_ifs; reflexivity. Qed.

Lemma century_noop s :
  bcd_in 0x00 0x99 (ld 7 s) = true -> same_regs s (_time_increment_century s).
Proof. run_abstract s. intros H. noop. Qed.

Lemma same_regs_ld s s' i : same_regs s s' -> ld i s' = ld i s.
Proof. intros [H _]. unfold ld. rewrite H. reflexivity. Qed.

Lemma same_regs_trans s s' s'' :
  same_regs s s' -> same_regs s' s'' -> same_regs s s''.
Proof. intros [H1 H2] [H3 H4]. split; congruence. Qed.

(** With valid fields from the minute on, the statements after the seconds
    check leave the register file as it is. *)
Lemma after_second_noop s :
  bcd_in 0x00 0x59 (ld 1 s) = true ->
  bcd_in 0x00 0x23 (ld 2 s) = true ->
  bcd_in 0x01 0x07 (ld 3 s) = true ->
  date_ok (truthy (_is_leap_year s)) (ld 4 s) (ld 5 s) = true ->
  bcd_in 0x00 0x99 (ld 6 s) = true ->
  bcd_in 0x00 0x99 (ld 7 s) = true ->
  _DATA_STORE
    (_time_increment_century
       (_time_increment_leap
          (_time_increment_year
             (_time_increment_month
                (_time_increment_date
                   (_time_increment_day
                      (_time_increment_hour
                         (_time_increment_minute s))))))))
  = _DATA_STORE s.
Proof.
  intros H1 H2 H3 H45 H6 H7.
  assert (H5 : bcd_in 0x01 0x12 (ld 5 s) = true)
    by (unfold date_ok in H45; apply andb_true_iff in H45; tauto).
  pose proof (minute_noop s H1) as R1.
  set (s1 := _time_increment_minute s) in *.
  assert (R2 : same_regs s (_time_increment_hour s1)).
  { eapply same_regs_trans; [exact R1|]. apply hour_noop.
    rewrite (same_regs_ld _ _ _ R1). exact H2. }
  set (s2 := _time_increment_hour s1) in *.
  assert (R3 : same_regs s (_time_increment_day s2)).
  { eapply same_regs_trans; [exact R2|]. apply day_noop.
    rewrite (same_regs_ld _ _ _ R2). exact H3. }
  set (s3 := _time_increment_day s2) in *.
  assert (R4 : same_regs s (_time_increment_date s3)).
  { eapply same_regs_trans; [exact R3|]. apply date_noop.
    rewrite !(same_regs_ld _ _ _ R3). destruct R3 as [_ ->]. exact H45. }
  set (s4 := _time_increment_date s3) in *.
  assert (R5 : same_regs s (_time_increment_month s4)).
  { eapply same_regs_trans; [exact R4|]. apply month_noop.
    rewrite (same_regs_ld _ _ _ R4). exact H5. }
  set (s5 := _time_increment_month s4) in *.
  assert (R6 : same_regs s (_time_increment_year s5)).
  { eapply same_regs_trans; [exact R5|]. apply year_noop.
    rewrite (same_regs_ld _ _ _ R5). exact H6. }
  set (s6 := _time_increment_year s5) in *.
  pose proof (leap_store s6) as D7.
  set (s7 := _time_increment_leap s6) in *.
  destruct (century_noop s7) as [D8 _].
  { unfold ld. rewrite D7. fold (ld 7 s6).
    rewrite (same_regs_ld _ _ _ R6). exact H7. }
  rewrite D8, D7. apply R6.
Qed.

(** The seconds check below 0x59. *)
Lemma second_plain s :
  length (_DATA_STORE s) = 31%nat ->
  bcd_in 0x00 0x58 (ld 0 s) = true ->
  let s' := _time_increment_second s in
  is_bcd (ld 0 s') = true
  /\ bcd_value (ld 0 s') = bcd_value (ld 0 s) + 1
  /\ _DATA_STORE s' = <[0%nat := ld 0 s']> (_DATA_STORE s)
  /\ _is_leap_year s' = _is_leap_year s.
Proof.
  intros Hlen. explode s. run. intros H.
  split_ifs; run; unfold bcd_value; finish.
Qed.

(** C6, as the code has it: in a valid calendar state of the device (the
    date not beyond the end of the month, February ending on the 29th when
    the cached leap-year indicator is set and on the 28th when it is not)
    with the seconds a BCD value from 0x00 to 0x58, [_time_increment] leaves
    the BCD successor in the seconds byte and changes no other byte of the
    register file. *)
Theorem seconds_only (s : state) :
  valid_calendar s = true ->
  bcd_in 0x00 0x58 (ld 0 s) = true ->
  is_bcd (ld 0 (_time_increment s)) = true
  /\ bcd_value (ld 0 (_time_increment s)) = bcd_value (ld 0 s) + 1
  /\ length (_DATA_STORE (_time_increment s)) = 31%nat
  /\ (forall i : nat, (1 <= i)%nat -> ld i (_time_increment s) = ld i s).
Proof.
  intros Hv H58.
  pose proof (valid_instant_inv0 _ _ Hv) as Hi.
  pose proof (fields_length _ _ _ _ _ _ _ _ Hi) as Hlen.
  unfold inv0, fields in Hi. rewrite !andb_true_iff in Hi.
  destruct Hi as (((((((_ & _) & H1) & H2) & H3) & H45) & H6) & H7).
  destruct (second_plain s Hlen H58) as (Hbcd & Hval & Hds & Hlp).
  set (s1 := _time_increment_second s) in *.
  assert (Hld : forall i : nat, (1 <= i)%nat -> ld i s1 = ld i s).
  { intros i Hi. unfold ld at 1. rewrite Hds.
    rewrite list_lookup_total_insert_ne by lia. reflexivity. }
  assert (E : _DATA_STORE (_time_increment s) = _DATA_STORE s1).
  { rewrite _time_increment_eq. fold s1. apply after_second_noop.
    - rewrite Hld by lia. exact H1.
    - rewrite Hld by lia. exact H2.
    - rewrite Hld by lia. exact H3.
    - rewrite !Hld, Hlp by lia. exact H45.
    - rewrite Hld by lia. exact H6.
    - rewrite Hld by lia. exact H7. }
  unfold ld at 1 2 3. rewrite E. fold (ld 0 s1).
  repeat split; try assumption.
  - rewrite Hds, length_insert. exact Hlen.
  - intros i Hi. unfold ld at 1. rewrite E. apply Hld, Hi.
Qed.

Lemma seconds_only_witness :
  ld 0 (_time_increment power_up) = 0x01
  /\ ld 4 (_time_increment power_up) = ld 4 power_up.
Proof.
  destruct (seconds_only power_up) as (_ & _ & _ & Hld);
    [vm_compute; reflexivity | vm_compute; reflexivity |].
  split; [vm_compute; reflexivity | apply Hld; lia].
Defined.

(** C6 as stated fails when the register file holds February 29 of a leap
    year and the cached indicator is still 0 (it is refreshed at power-up
    and at a year rollover only): the date [switch] fires whatever the
    seconds are. *)
Lemma stale_leap_cache_moves_date :
  ~ (forall s : state,
       calendar_valid s = true ->
       bcd_in 0x00 0x58 (ld 0 s) = true ->
       forall i : nat, (1 <= i <= 30)%nat -> ld i (_time_increment s) = ld i s).
Proof.
  intros H.
  assert (F : ld 4 (_time_increment stale_february) = ld 4 stale_february).
  { apply H; [vm_compute; reflexivity | vm_compute; reflexivity | lia]. }
  vm_compute in F. discriminate F.
Qed.

(** In a February the device holds leap, the 29th is followed by a 30th:
    the increment of 0x29 is 0x2A, which only [_time_carry] handles. *)
Example leap_february_day_30 :
  ld 4 (_time_increment leap_day_end) = 0x30
  /\ ld 5 (_time_increment leap_day_end) = 0x02.
Proof. vm_compute. split; reflexivity. Qed.

(** ** The alarm engine *)

Lemma check_alarm_length m h d bit dmb s :
  length (_DATA_STORE (check_alarm m h d bit dmb s)) = length (_DATA_STORE s).
Proof.
  unfold check_alarm. destruct (alarm_matches m h d dmb s); [|reflexivity].
  cbn. apply length_insert.
Qed.

Lemma check_alarm_other m h d bit dmb s i :
  i <> 30%nat -> ld i (check_alarm m h d bit dmb s) = ld i s.
Proof.
  intros Hi. unfold check_alarm.
  destruct (alarm_matches m h d dmb s); [|reflexivity].
  unfold ld, st. cbn. apply list_lookup_total_insert_ne. auto.
Qed.

Lemma check_alarm_flag m h d bit dmb s :
  (30 < length (_DATA_STORE s))%nat ->
  ld 30 (check_alarm m h d bit dmb s)
  = Z.lor (ld 30 s) (if alarm_matches m h d dmb s then bit else 0).
Proof.
  intros Hlen. unfold check_alarm.
  destruct (alarm_matches m h d dmb s).
  - unfold ld, st. cbn. apply list_lookup_total_insert_eq. exact Hlen.
  - rewrite Z.lor_0_r. reflexivity.
Qed.

Lemma alarm_matches_other m h d bit dmb m' h' d' s :
  m' <> 30%nat -> h' <> 30%nat -> d' <> 30%nat ->
  alarm_matches m' h' d' dmb (check_alarm m h d bit dmb s)
  = alarm_matches m' h' d' dmb s.
Proof.
  intros Hm Hh Hd. unfold alarm_matches.
  rewrite !check_alarm_other by (assumption || discriminate). reflexivity.
Qed.

(** The flag register after [_check_alarms]: each alarm that matches the
    time on entry adds its bit. *)
Lemma check_alarms_flags s :
  length (_DATA_STORE s) = 31%nat ->
  let dmb := day_mask_of (ld 3 s) in
  ld 30 (_check_alarms s)
  = Z.lor (Z.lor (Z.lor (Z.lor (Z.lor (Z.lor (ld 30 s)
      (if alarm_matches 8 9 10 dmb s then BIT0 else 0))
      (if alarm_matches 11 12 13 dmb s then BIT1 else 0))
      (if alarm_matches 14 15 16 dmb s then BIT2 else 0))
      (if alarm_matches 17 18 19 dmb s then BIT3 else 0))
      (if alarm_matches 20 21 22 dmb s then BIT4 else 0))
      (if alarm_matches 23 24 25 dmb s then BIT5 else 0).
Proof.
  intros Hlen dmb. unfold _check_alarms. fold dmb.
  rewrite !check_alarm_flag by (rewrite ?check_alarm_length, Hlen; lia).
  rewrite !alarm_matches_other by discriminate.
  reflexivity.
Qed.

Lemma testbit_mask (c : bool) (j k : Z) :
  0 <= j -> 0 <= k ->
  Z.testbit (if c then 2 ^ j else 0) k = c && (j =? k).
Proof.
  intros Hj Hk. destruct c; [|apply Z.bits_0].
  cbn [andb]. destruct (j =? k) eqn:E.
  - apply Z.eqb_eq in E. subst k. apply Z.pow2_bits_true. exact Hj.
  - apply Z.eqb_neq in E. apply Z.pow2_bits_false. exact E.
Qed.

Lemma is_u8b_ld s i :
  store_okb s = true -> (i < 31)%nat -> is_u8 (ld i s).
Proof.
  unfold store_okb. rewrite andb_true_iff, Nat.eqb_eq, forallb_forall.
  intros [Hlen Hall] Hi.
  assert (Hin : In (ld i s) (_DATA_STORE s)).
  { apply list_elem_of_In. unfold ld. apply list_elem_of_lookup_total_2. lia. }
  apply Hall in Hin. unfold is_u8b in Hin. unfold is_u8. lia.
Qed.

Lemma high_bit_clear x : is_u8 x -> Z.land x BIT7 = 0 -> x < 0x80.
Proof.
  intros Hx H.
  pose proof (byte_forall (fun x => implb (Z.land x BIT7 =? 0) (x <? 0x80))
                eq_refl x Hx) as B.
  cbv beta in B. rewrite H in B. cbn in B. lia.
Qed.

(** C7: after [_check_alarms], bit [k] of the flag register (offset 30) is
    set exactly when it was set before or alarm [k] matches: the live minute
    equals the alarm minute, the live hour plus 0x80 equals the stored alarm
    hour, and the day mask has its top bit or the bit of the live weekday.
    Hence, with a live hour in BCD 0x00..0x23 and a stored alarm hour whose
    high bit is clear, the alarm does not match and its flag bit is as it
    was. *)
Theorem check_alarms_match (s : state) (k : nat) :
  store_okb s = true ->
  (k < 6)%nat ->
  Z.testbit (ld 30 (_check_alarms s)) (Z.of_nat k)
  = Z.testbit (ld 30 s) (Z.of_nat k)
    || ((ld 1 s =? ld (alarm_minute k) s)
        && (ld 2 s + 0x80 =? ld (alarm_hour k) s)
        && (truthy (Z.land (ld (alarm_days k) s) 0x80)
            || truthy (Z.land (ld (alarm_days k) s) (day_mask_of (ld 3 s)))))
  /\ (bcd_in 0x00 0x23 (ld 2 s) = true ->
      Z.land (ld (alarm_hour k) s) BIT7 = 0 ->
      Z.testbit (ld 30 (_check_alarms s)) (Z.of_nat k)
      = Z.testbit (ld 30 s) (Z.of_nat k)).
Proof.
  intros Hok Hk.
  assert (Hlen : length (_DATA_STORE s) = 31%nat).
  { unfold store_okb in Hok. apply andb_true_iff in Hok.
    apply Nat.eqb_eq. tauto. }
  assert (E : Z.testbit (ld 30 (_check_alarms s)) (Z.of_nat k)
    = Z.testbit (ld 30 s) (Z.of_nat k)
      || alarm_matches (alarm_minute k) (alarm_hour k) (alarm_days k)
           (day_mask_of (ld 3 s)) s).
  { rewrite check_alarms_flags by exact Hlen. cbv zeta.
    rewrite !Z.lor_spec.
    change BIT0 with (2 ^ 0). change BIT1 with (2 ^ 1).
    change BIT2 with (2 ^ 2). change BIT3 with (2 ^ 3).
    change BIT4 with (2 ^ 4). change BIT5 with (2 ^ 5).
    rewrite !testbit_mask by lia.
    do 6 (destruct k as [|k];
          [cbn; rewrite ?andb_false_r, ?andb_true_r, ?orb_false_r;
           reflexivity|]).
    lia. }
  split; [exact E|].
  intros Hhour Hbit. rewrite E.
  assert (Hu : is_u8 (ld (alarm_hour k) s))
    by (apply is_u8b_ld; [exact Hok | unfold alarm_hour; lia]).
  pose proof (high_bit_clear _ Hu Hbit) as Hlt.
  unfold alarm_matches.
  replace (ld 2 s + 128 =? ld (alarm_hour k) s) with false.
  - rewrite andb_false_r, orb_false_r. reflexivity.
  - symmetry. apply Z.eqb_neq.
    unfold bcd_in, is_bcd in Hhour. lia.
Qed.

Lemma check_alarms_match_witness :
  Z.testbit (ld 30 (_check_alarms alarm_time)) 0 = true
  /\ Z.testbit (ld 30 (_check_alarms alarm_time)) 1 = false.
Proof.
  split.
  - destruct (check_alarms_match alarm_time 0) as [E _];
      [vm_compute; reflexivity | lia |].
    change (Z.of_nat 0) with 0 in E. rewrite E. vm_compute. reflexivity.
  - destruct (check_alarms_match alarm_time 1) as [_ E];
      [vm_compute; reflexivity | lia |].
    change (Z.of_nat 1) with 1 in E. rewrite E; vm_compute; reflexivity.
Defined.

(** ** The receive callback *)

(** The [switch] on the cursor as a comparison. *)
Lemma USI_I2C_slave_RX_callback_eq byte s :
  USI_I2C_slave_RX_callback byte s =
  if negb (truthy (_USI_I2C_slave_n_byte s)) then
    Some (0, set_n_byte 1 (set_I2C_data_offset byte s))
  else
    let stored :=
      if negb (_I2C_data_offset s =? 26) && negb (_I2C_data_offset s =? 27)
      then
        if _I2C_data_offset s =? 30
        then Some (st 30 (flag_write (ld 30 s) byte) s)
        else store_at (_I2C_data_offset s) byte s
      else Some s in
    match stored with
    | Some s => Some (0, set_I2C_data_offset (u8 (_I2C_data_offset s + 1)) s)
    | None => None
    end.
Proof.
  unfold USI_I2C_slave_RX_callback, flag_write.
  destruct (negb (truthy (_USI_I2C_slave_n_byte s))); [reflexivity|].
  destruct (_I2C_data_offset s) as [|p|p]; try reflexivity.
  do 6 (try reflexivity; destruct p as [p|p|]; try reflexivity).
Qed.

Lemma byte_forall2 (P : Z -> Z -> bool) :
  forallb (fun a => forallb (P a) (map Z.of_nat (seq 0 256)))
    (map Z.of_nat (seq 0 256)) = true ->
  forall a b, is_u8 a -> is_u8 b -> P a b = true.
Proof.
  intros H a b Ha Hb.
  apply (byte_forall (P a)); [|exact Hb].
  apply (byte_forall (fun a => forallb (P a) (map Z.of_nat (seq 0 256))));
    assumption.
Qed.

(** The six guards together: the received byte, with each of the bits 0..5
    kept only where the flag register has it. *)
Lemma flag_write_mask flags byte :
  is_u8 flags -> is_u8 byte ->
  flag_write flags byte = Z.land byte (Z.lor flags 0xC0).
Proof.
  intros Hf Hb. apply Z.eqb_eq.
  apply (byte_forall2
           (fun f b => flag_write f b =? Z.land b (Z.lor f 0xC0)));
    [vm_compute; reflexivity | exact Hf | exact Hb].
Qed.

Lemma store_okb_length s :
  store_okb s = true -> length (_DATA_STORE s) = 31%nat.
Proof.
  unfold store_okb. rewrite andb_true_iff, Nat.eqb_eq. tauto.
Qed.

Lemma ld_st_eq i v s :
  (i < length (_DATA_STORE s))%nat -> ld i (st i v s) = v.
Proof. intros H. unfold ld, st. cbn. apply list_lookup_total_insert_eq, H. Qed.

Lemma ld_st_ne i j v s : i <> j -> ld j (st i v s) = ld j s.
Proof. intros H. unfold ld, st. cbn. apply list_lookup_total_insert_ne, H. Qed.

(** The receive callback with the cursor on the flag register. *)
Lemma flag_write_stored s byte :
  store_okb s = true ->
  is_u8 byte ->
  truthy (_USI_I2C_slave_n_byte s) = true ->
  _I2C_data_offset s = 30 ->
  USI_I2C_slave_RX_callback byte s
  = Some (0, set_I2C_data_offset 31
               (st 30 (Z.land byte (Z.lor (ld 30 s) 0xC0)) s)).
Proof.
  intros Hok Hb Hn Hoff.
  rewrite USI_I2C_slave_RX_callback_eq, Hn, Hoff. cbn [negb Z.eqb Pos.eqb andb].
  cbv zeta. rewrite flag_write_mask
    by (exact Hb || (apply is_u8b_ld; [exact Hok | lia])).
  cbn [_I2C_data_offset st set_DATA_STORE]. rewrite Hoff. reflexivity.
Qed.

(** C1, as the code has it: a data byte written to the flag register
    (offset 30) is stored with each of the six flag bits (bits 0..5) cleared
    where the flag register had it clear, so none of these bits is set by
    the write; bits 6 and 7, which are no alarm flags, are stored as the
    host sent them. *)
Theorem flag_write_clears_only (s : state) (byte : Z) :
  store_okb s = true ->
  is_u8 byte ->
  truthy (_USI_I2C_slave_n_byte s) = true ->
  _I2C_data_offset s = 30 ->
  exists s' : state,
    USI_I2C_slave_RX_callback byte s = Some (0, s')
    /\ ld 30 s' = Z.land byte (Z.lor (ld 30 s) 0xC0)
    /\ (forall k : Z, 0 <= k < 6 ->
          Z.testbit (ld 30 s') k = true -> Z.testbit (ld 30 s) k = true)
    /\ (forall k : Z, k = 6 \/ k = 7 ->
          Z.testbit (ld 30 s') k = Z.testbit byte k).
Proof.
  intros Hok Hb Hn Hoff.
  eexists. split; [apply flag_write_stored; assumption|].
  assert (E : ld 30 (set_I2C_data_offset 31
                       (st 30 (Z.land byte (Z.lor (ld 30 s) 0xC0)) s))
              = Z.land byte (Z.lor (ld 30 s) 0xC0)).
  { change (ld 30 (set_I2C_data_offset 31 ?t)) with (ld 30 t).
    apply ld_st_eq. rewrite (store_okb_length _ Hok). lia. }
  rewrite E. split; [reflexivity|]. split.
  - intros k Hk. rewrite Z.land_spec, Z.lor_spec.
    assert (H0 : Z.testbit 0xC0 k = false).
    { assert (Hc : k = 0 \/ k = 1 \/ k = 2 \/ k = 3 \/ k = 4 \/ k = 5) by lia.
      destruct Hc as [-> | [-> | [-> | [-> | [-> | ->]]]]]; reflexivity. }
    rewrite H0, orb_false_r. intros H. apply andb_true_iff in H. tauto.
  - intros k Hk. rewrite Z.land_spec, Z.lor_spec.
    assert (H1 : Z.testbit 0xC0 k = true)
      by (destruct Hk as [-> | ->]; reflexivity).
    rewrite H1, orb_true_r, andb_true_r. reflexivity.
Qed.

Lemma flag_write_clears_only_witness :
  exists s' : state,
    USI_I2C_slave_RX_callback 0x3F flags_addressed = Some (0, s')
    /\ ld 30 s' = 0x00.
Proof.
  destruct (flag_write_clears_only flags_addressed 0x3F)
    as (s' & Hrx & Hld & _);
    [vm_compute; reflexivity | unfold is_u8; lia | reflexivity | reflexivity |].
  exists s'. split; [exact Hrx|]. rewrite Hld. vm_compute. reflexivity.
Defined.

(** C1 as stated fails on bit 6: with an empty flag register the byte 0x40
    is stored as it is. *)
Lemma flag_write_sets_bit6 :
  ~ (forall (s s' : state) (byte : Z),
       store_okb s = true ->
       is_u8 byte ->
       truthy (_USI_I2C_slave_n_byte s) = true ->
       _I2C_data_offset s = 30 ->
       USI_I2C_slave_RX_callback byte s = Some (0, s') ->
       forall k : Z,
         Z.testbit (ld 30 s') k = true -> Z.testbit (ld 30 s) k = true).
Proof.
  intros H.
  specialize (H flags_addressed
                (set_I2C_data_offset 31 (st 30 0x40 flags_addressed)) 0x40).
  assert (F : Z.testbit (ld 30 flags_addressed) 6 = true).
  { apply H; try (vm_compute; reflexivity). unfold is_u8. lia. }
  vm_compute in F. discriminate F.
Qed.

Lemma in_store_true off s :
  0 <= off < Z.of_nat (length (_DATA_STORE s)) -> in_store off s = true.
Proof.
  intros H. unfold in_store. apply andb_true_iff.
  split; [apply Z.leb_le | apply Z.ltb_lt]; lia.
Qed.

Lemma in_store_false off s :
  Z.of_nat (length (_DATA_STORE s)) <= off -> in_store off s = false.
Proof.
  intros H. unfold in_store. apply andb_false_iff. right.
  apply Z.ltb_ge. exact H.
Qed.

Lemma eqb_false_of (x y : Z) : x <> y -> (x =? y) = false.
Proof. apply Z.eqb_neq. Qed.

(** A data byte with the cursor inside the register file. *)
Lemma rx_data_inside s byte :
  length (_DATA_STORE s) = 31%nat ->
  truthy (_USI_I2C_slave_n_byte s) = true ->
  0 <= _I2C_data_offset s <= 30 ->
  exists s' : state,
    USI_I2C_slave_RX_callback byte s = Some (0, s')
    /\ length (_DATA_STORE s') = 31%nat
    /\ _USI_I2C_slave_n_byte s' = _USI_I2C_slave_n_byte s
    /\ _I2C_data_offset s' = _I2C_data_offset s + 1
    /\ (forall i : nat,
          i <> Z.to_nat (_I2C_data_offset s) -> ld i s' = ld i s)
    /\ ld (Z.to_nat (_I2C_data_offset s)) s'
       = if (_I2C_data_offset s =? 26) || (_I2C_data_offset s =? 27)
         then ld (Z.to_nat (_I2C_data_offset s)) s
         else if _I2C_data_offset s =? 30
              then flag_write (ld 30 s) byte
              else byte.
Proof.
  intros Hlen Hn Hc.
  rewrite USI_I2C_slave_RX_callback_eq, Hn. cbn [negb]. cbv zeta.
  assert (Hu : u8 (_I2C_data_offset s + 1) = _I2C_data_offset s + 1)
    by (unfold u8; apply Z.mod_small; lia).
  destruct (_I2C_data_offset s =? 26) eqn:E26;
    [|destruct (_I2C_data_offset s =? 27) eqn:E27];
    cbn [negb andb orb].
  1, 2: eexists; split; [reflexivity|]; rewrite Hu; cbn; auto 10.
  destruct (_I2C_data_offset s =? 30) eqn:E30.
  - apply Z.eqb_eq in E30.
    eexists. split; [reflexivity|].
    cbn [_I2C_data_offset st set_DATA_STORE set_I2C_data_offset _DATA_STORE
         _USI_I2C_slave_n_byte].
    rewrite Hu, length_insert.
    fold (st 30 (flag_write (ld 30 s) byte) s).
    repeat split; try assumption.
    + intros i Hi. unfold ld. cbn. rewrite E30 in Hi.
      apply list_lookup_total_insert_ne. auto.
    + unfold ld at 1. cbn. rewrite E30.
      apply list_lookup_total_insert_eq. lia.
  - unfold store_at. rewrite in_store_true by (rewrite Hlen; lia).
    eexists. split; [reflexivity|].
    cbn [_I2C_data_offset st set_DATA_STORE set_I2C_data_offset _DATA_STORE
         _USI_I2C_slave_n_byte].
    rewrite Hu, length_insert.
    repeat split; try assumption.
    + intros i Hi. unfold ld. cbn.
      apply list_lookup_total_insert_ne. auto.
    + unfold ld at 1. cbn.
      apply list_lookup_total_insert_eq. lia.
Qed.

(** A data byte with the cursor past the register file. *)
Lemma rx_data_outside s byte :
  length (_DATA_STORE s) = 31%nat ->
  truthy (_USI_I2C_slave_n_byte s) = true ->
  31 <= _I2C_data_offset s ->
  USI_I2C_slave_RX_callback byte s = None.
Proof.
  intros Hlen Hn Hc.
  rewrite USI_I2C_slave_RX_callback_eq, Hn. cbn [negb]. cbv zeta.
  rewrite !eqb_false_of by lia.
  cbn [negb andb]. unfold store_at.
  rewrite in_store_false by (rewrite Hlen; lia). reflexivity.
Qed.

Lemma receive_data ds : forall s,
  length (_DATA_STORE s) = 31%nat ->
  truthy (_USI_I2C_slave_n_byte s) = true ->
  0 <= _I2C_data_offset s <= 31 ->
  (receive ds s = None <-> 31 < _I2C_data_offset s + Z.of_nat (length ds)).
Proof.
  induction ds as [|d ds IH]; intros s Hlen Hn Hc.
  - cbn. split; [discriminate | lia].
  - cbn [receive length].
    destruct (Z.eq_dec (_I2C_data_offset s) 31) as [E|E].
    + rewrite rx_data_outside by (assumption || lia). split; [lia | reflexivity].
    + destruct (rx_data_inside s d Hlen Hn) as (s' & -> & Hlen' & Hn' & Hc' & _);
        [lia|].
      rewrite IH by (try assumption; rewrite ?Hn', ?Hc'; (assumption || lia)).
      rewrite Hc'. lia.
Qed.

(** C10: after the offset byte [o] of a write transaction (byte count 0),
    the callback stores every one of the data bytes [ds] inside the 31-byte
    register file when [o] plus their number is at most 31; it makes a store
    outside the register file (the [None] of the embedding) exactly when
    there is a data byte and that sum exceeds 31, as for an offset byte of
    31 or more followed by one data byte. *)
Theorem receive_bounds (s : state) (o : Z) (ds : list Z) :
  length (_DATA_STORE s) = 31%nat ->
  is_u8 o ->
  _USI_I2C_slave_n_byte s = 0 ->
  (o + Z.of_nat (length ds) <= 31 ->
   exists s' : state, receive (o :: ds) s = Some s')
  /\ (receive (o :: ds) s = None
      <-> ds <> [] /\ 31 < o + Z.of_nat (length ds))
  /\ (forall d : Z, 31 <= o -> receive [o; d] s = None).
Proof.
  intros Hlen Ho Hn.
  assert (E : receive (o :: ds) s = None
              <-> ds <> [] /\ 31 < o + Z.of_nat (length ds)).
  { cbn [receive]. rewrite USI_I2C_slave_RX_callback_eq, Hn. cbn [truthy negb Z.eqb].
    set (s1 := set_n_byte 1 (set_I2C_data_offset o s)).
    destruct ds as [|d ds].
    - cbn. split; [discriminate | intros [H _]; congruence].
    - assert (Hne : d :: ds <> []) by discriminate.
      destruct (Z_le_gt_dec o 31) as [Hle|Hgt].
      + rewrite (receive_data (d :: ds) s1) by (cbn; (assumption || reflexivity || (unfold is_u8 in Ho; lia))).
        cbn [_I2C_data_offset s1 set_n_byte set_I2C_data_offset]. tauto.
      + cbn [receive]. rewrite rx_data_outside
          by (cbn; (assumption || reflexivity || lia)).
        cbn [length]. split; [intros _; split; [exact Hne | lia] | reflexivity]. }
  split; [|split].
  - intros Hsum. destruct (receive (o :: ds) s) as [s'|] eqn:R.
    + exists s'. reflexivity.
    + exfalso. destruct E as [E _]. specialize (E eq_refl). lia.
  - exact E.
  - intros d H31.
    cbn [receive]. rewrite USI_I2C_slave_RX_callback_eq, Hn. cbn [truthy negb Z.eqb].
    rewrite rx_data_outside by (cbn; (assumption || reflexivity || lia)).
    reflexivity.
Qed.

Lemma receive_bounds_witness :
  (exists s' : state, receive [28; 0x80; 0x3F; 0x00] power_up = Some s')
  /\ receive [31; 0x00] power_up = None.
Proof.
  destruct (receive_bounds power_up 28 [0x80; 0x3F; 0x00])
    as (Hin & _ & _); [reflexivity | unfold is_u8; lia | reflexivity |].
  destruct (receive_bounds power_up 31 [0x00])
    as (_ & _ & Hout); [reflexivity | unfold is_u8; lia | reflexivity |].
  split; [apply Hin; cbn; lia | apply Hout; lia].
Defined.

(** ** The handler and the callback in receiver mode *)

Section Receiver.

Variables USIOE USISTP USISTTIFG USIIFG : Z.

Local Abbreviation handler := (USI_INT USIOE USISTP USISTTIFG USIIFG).

Lemma usi_int_start u :
  truthy (Z.land (USICTL1 u) USISTTIFG) = true ->
  exists u' : usi,
    handler u = Some u'
    /\ rtc u' = _USI_I2C_slave_reset_byte_count (rtc u)
    /\ _USI_I2C_slave_state u' = 3.
Proof.
  intros H. unfold handler, USI_INT, USI_INT_start. rewrite H.
  eexists. split; [reflexivity|]. split; reflexivity.
Qed.

Lemma usi_int_received u r :
  truthy (Z.land (USICTL1 u) USISTTIFG) = false ->
  _USI_I2C_slave_state u = 13 ->
  USI_I2C_slave_RX_callback (USISRL u) (rtc u) = Some (0, r) ->
  exists u' : usi,
    handler u = Some u'
    /\ rtc u' = r
    /\ _USI_I2C_slave_state u' = 11
    /\ USISRL u' = 0x00.
Proof.
  intros Hs H13 Hrx. unfold handler, USI_INT, USI_INT_start. rewrite Hs.
  unfold USI_INT_switch. rewrite H13.
  cbn [set_RX_buff _USI_I2C_slave_RX_buff rtc]. rewrite Hrx.
  eexists. split; [reflexivity|]. repeat split.
Qed.

Lemma usi_int_fault u :
  truthy (Z.land (USICTL1 u) USISTTIFG) = false ->
  _USI_I2C_slave_state u = 13 ->
  USI_I2C_slave_RX_callback (USISRL u) (rtc u) = None ->
  handler u = None.
Proof.
  intros Hs H13 Hrx. unfold handler, USI_INT, USI_INT_start. rewrite Hs.
  unfold USI_INT_switch. rewrite H13.
  cbn [set_RX_buff _USI_I2C_slave_RX_buff rtc]. rewrite Hrx. reflexivity.
Qed.

(** C8, as the code has it: a start condition clears the byte count; in
    state 13 the handler passes the received byte to the callback,
    acknowledges and goes on receiving; the callback takes the byte
    received at byte count 0 as the cursor and stores nothing; every later
    byte, the cursor being inside the register file, leaves the cursor one
    further and every other offset as it was, and at the cursor it is
    stored as received, except that at offsets 26 and 27 nothing is stored
    and at offset 30 the byte stored is the received byte with the bits
    0..5 the flag register does not have cleared. *)
Theorem receiver_bytes :
  (forall u : usi,
     truthy (Z.land (USICTL1 u) USISTTIFG) = true ->
     exists u' : usi,
       handler u = Some u'
       /\ _USI_I2C_slave_n_byte (rtc u') = 0
       /\ _DATA_STORE (rtc u') = _DATA_STORE (rtc u))
  /\ (forall (u : usi) (r : state),
        truthy (Z.land (USICTL1 u) USISTTIFG) = false ->
        _USI_I2C_slave_state u = 13 ->
        USI_I2C_slave_RX_callback (USISRL u) (rtc u) = Some (0, r) ->
        exists u' : usi,
          handler u = Some u'
          /\ rtc u' = r
          /\ _USI_I2C_slave_state u' = 11
          /\ USISRL u' = 0x00)
  /\ (forall (s : state) (byte : Z),
        _USI_I2C_slave_n_byte s = 0 ->
        USI_I2C_slave_RX_callback byte s
        = Some (0, set_n_byte 1 (set_I2C_data_offset byte s)))
  /\ (forall (s : state) (byte : Z),
        store_okb s = true ->
        is_u8 byte ->
        truthy (_USI_I2C_slave_n_byte s) = true ->
        0 <= _I2C_data_offset s <= 30 ->
        exists s' : state,
          USI_I2C_slave_RX_callback byte s = Some (0, s')
          /\ _I2C_data_offset s' = _I2C_data_offset s + 1
          /\ _USI_I2C_slave_n_byte s' = _USI_I2C_slave_n_byte s
          /\ (forall i : nat,
                i <> Z.to_nat (_I2C_data_offset s) -> ld i s' = ld i s)
          /\ ld (Z.to_nat (_I2C_data_offset s)) s'
             = if (_I2C_data_offset s =? 26) || (_I2C_data_offset s =? 27)
               then ld (Z.to_nat (_I2C_data_offset s)) s
               else if _I2C_data_offset s =? 30
                    then Z.land byte (Z.lor (ld 30 s) 0xC0)
                    else byte).
Proof.
  split; [|split; [|split]].
  - intros u H. destruct (usi_int_start u H) as (u' & Hu & Hr & _).
    exists u'. rewrite Hr. repeat split. exact Hu.
  - apply usi_int_received.
  - intros s byte Hn. rewrite USI_I2C_slave_RX_callback_eq, Hn. reflexivity.
  - intros s byte Hok Hb Hn Hc.
    destruct (rx_data_inside s byte (store_okb_length _ Hok) Hn Hc)
      as (s' & Hrx & _ & Hn' & Hc' & Hothers & Hat).
    exists s'. repeat split; try assumption.
    rewrite Hat, flag_write_mask
      by (exact Hb || (apply is_u8b_ld; [exact Hok | lia])).
    reflexivity.
Qed.

End Receiver.

Lemma receiver_bytes_witness :
  (exists u' : usi,
     USI_INT 0x02 0x04 0x02 0x01 started = Some u'
     /\ _USI_I2C_slave_n_byte (rtc u') = 0)
  /\ (exists s' : state,
        USI_I2C_slave_RX_callback 0x80 (rtc (receiving 0x80)) = Some (0, s')
        /\ ld 28 s' = 0x80
        /\ _I2C_data_offset s' = 29).
Proof.
  destruct (receiver_bytes 0x02 0x04 0x02 0x01) as (Hstart & _ & _ & Hdata).
  split.
  - destruct (Hstart started) as (u' & Hu & Hn & _); [reflexivity|].
    exists u'. split; assumption.
  - destruct (Hdata (rtc (receiving 0x80)) 0x80)
      as (s' & Hrx & Hc & _ & _ & Hat);
      [vm_compute; reflexivity | unfold is_u8; lia | reflexivity
      | vm_compute; split; discriminate |].
    exists s'. split; [exact Hrx|]. split; [exact Hat | exact Hc].
Defined.

(** C8 as stated fails at offset 30: there the byte stored is not the byte
    received. *)
Lemma flag_register_not_stored_as_received :
  ~ (forall (s s' : state) (byte : Z),
       store_okb s = true ->
       is_u8 byte ->
       truthy (_USI_I2C_slave_n_byte s) = true ->
       0 <= _I2C_data_offset s <= 30 ->
       _I2C_data_offset s <> 26 ->
       _I2C_data_offset s <> 27 ->
       USI_I2C_slave_RX_callback byte s = Some (0, s') ->
       ld (Z.to_nat (_I2C_data_offset s)) s' = byte).
Proof.
  intros H.
  specialize (H flags_addressed
                (set_I2C_data_offset 31 (st 30 0x00 flags_addressed)) 0x3F).
  assert (F : ld (Z.to_nat (_I2C_data_offset flags_addressed))
                (set_I2C_data_offset 31 (st 30 0x00 flags_addressed)) = 0x3F).
  { apply H; try (vm_compute; reflexivity); try (vm_compute; discriminate).
    - unfold is_u8. lia.
    - vm_compute. split; discriminate. }
  vm_compute in F. discriminate F.
Qed.

(** ** The tick scheduler *)

(** C9: [Timer_A0] increments the tick counter and acts on the resulting
    count [n] alone: at 2 it raises BIT4 (interrupt assertion), at 6 BIT5
    (interrupt reset), at 12 BIT0 (time advance) of the action bits; at 8
    and at 16 it toggles BIT0 of port 1, the 1 Hz output; at 16 it resets
    the counter to 0; at any other count the action bits and the port are
    as they were.  The register file is not touched. *)
Theorem timer_phases (s : state) :
  let n := u16 (_second_tick s + 1) in
  _second_tick (Timer_A0 s) = (if n =? 16 then 0 else n)
  /\ _RTC_action_bits (Timer_A0 s)
     = (if n =? 2 then Z.lor (_RTC_action_bits s) BIT4
        else if n =? 6 then Z.lor (_RTC_action_bits s) BIT5
        else if n =? 12 then Z.lor (_RTC_action_bits s) BIT0
        else _RTC_action_bits s)
  /\ P1OUT (Timer_A0 s)
     = (if (n =? 8) || (n =? 16) then Z.lxor (P1OUT s) BIT0 else P1OUT s)
  /\ P2OUT (Timer_A0 s) = P2OUT s
  /\ TACCR0 (Timer_A0 s) = u16 (TACCR0 s + _second_div)
  /\ _DATA_STORE (Timer_A0 s) = _DATA_STORE s.
Proof.
  intros n. unfold Timer_A0.
  cbn [set_TACCR0 set_second_tick _second_tick]. fold n.
  destruct n as [|p|p]; try (repeat split; reflexivity).
  do 5 (try (repeat split; reflexivity); destruct p as [p|p|];
        try (repeat split; reflexivity)).
Qed.
